(** * next-supabase-auth: the form hook, the sign-up page and the auth provider

    A shallow embedding of [src/lib/utils.ts] ([useFormFields]), of the
    sign-up page ([IndexPage]) and of [src/lib/auth/AuthContext.tsx]
    ([AuthProvider]: [signUp], [signIn], [signInWithGithub], [signOut],
    [setServerSession], the mount effect and the auth-state-change
    listener).

    Handlers are written in a small monad that threads the React state of
    the component, records every externally visible action in a trace and
    carries JavaScript's abrupt completion ([throw]), so [try]/[catch]/
    [finally] and a rejected [await] read as they do in the source. *)

From stdpp Require Import base option list strings gmap.

(** ** JavaScript values

    Only what the handlers inspect dynamically: the value bound by
    [catch (error)] and the [message] handed to the banner. Numbers are the
    integral ones. *)

#[warnings="-register-all"] Inductive JsVal : Type :=
| JUndefined
| JNull
| JBool (b : bool)
| JNum (z : Z)
| JStr (s : string)
| JObj (props : list (string * JsVal)).

(** ToBoolean. *)
Definition truthy (v : JsVal) : bool :=
  match v with
  | JUndefined | JNull => false
  | JBool b => b
  | JNum z => negb (Z.eqb z 0)
  | JStr s => negb (String.eqb s "")
  | JObj _ => true
  end.

(** [a || b]. *)
Definition js_or (a b : JsVal) : JsVal := if truthy a then a else b.

Fixpoint assoc (k : string) (props : list (string * JsVal)) : JsVal :=
  match props with
  | [] => JUndefined
  | (k', v) :: rest => if String.eqb k k' then v else assoc k rest
  end.

(** A [TypeError] instance, as an object with its two visible properties. *)
Definition TypeError (msg : string) : JsVal :=
  JObj [("name", JStr "TypeError"); ("message", JStr msg)].

Definition show_nullish (v : JsVal) : string :=
  match v with JNull => "null" | _ => "undefined" end.

(** Outcome of evaluating a JavaScript expression or statement. *)
Inductive Completion (A : Type) : Type :=
| Normal (a : A)
| Throw (e : JsVal).
Arguments Normal {A} a.
Arguments Throw {A} e.

(** [v.k] for a property [k] that no primitive wrapper defines (such as
    [error_description]): a [TypeError] on [null] and [undefined],
    [undefined] on the other primitives, the property on an object. *)
Definition get_prop (v : JsVal) (k : string) : Completion JsVal :=
  match v with
  | JUndefined | JNull =>
      Throw (TypeError ("Cannot read properties of " +:+ show_nullish v
                        +:+ " (reading '" +:+ k +:+ "')"))
  | JObj props => Normal (assoc k props)
  | _ => Normal JUndefined
  end.

(** A settled promise, as [await] sees it. *)
Inductive Settled (A : Type) : Type :=
| Fulfilled (a : A)
| Rejected (reason : JsVal).
Arguments Fulfilled {A} a.
Arguments Rejected {A} reason.

(** ** Data of the provider SDK and of the application *)

(** [SupabaseAuthPayload] ([./auth.types]): the credential pair. *)
Record SupabaseAuthPayload : Type := {
  email : string;
  password : string
}.

(** Argument of [supabase.auth.signIn]: credentials or an OAuth provider. *)
Inductive SignInCredentials : Type :=
| WithPassword (payload : SupabaseAuthPayload)
| WithProvider (provider : string).

Record User : Type := {
  user_id : string;
  user_email : option string
}.

Record Session : Type := {
  access_token : string;
  refresh_token : string;
  session_user : option User
}.

Record ApiError : Type := {
  error_message : string;
  error_status : Z
}.

(** What [signUp] and [signIn] of the SDK resolve to. *)
Record AuthResponse : Type := {
  resp_user : option User;
  resp_session : option Session;
  resp_error : option ApiError
}.

(** Event: 'SIGNED_IN' | 'SIGNED_OUT' | 'USER_UPDATED' | 'PASSWORD_RECOVERY' *)
Inductive AuthChangeEvent : Type :=
| SIGNED_IN
| SIGNED_OUT
| USER_UPDATED
| PASSWORD_RECOVERY.

(** The object literal [{ event, session }]. *)
Record SessionSyncBody : Type := {
  body_event : AuthChangeEvent;
  body_session : option Session
}.

(** The [init] argument of [fetch], with its resource. *)
Record Request : Type := {
  url : string;
  method : string;
  headers : list (string * string);
  credentials : string;
  body : string
}.

(** Argument of [handleMessage]. *)
Record MessageProps : Type := {
  message : JsVal;
  type : option string
}.

(** State cells of [AuthProvider]. *)
Record AuthState : Type := {
  loading : bool;
  user : option User;
  userLoading : bool;
  loggedIn : bool
}.

(** [useState] initial values of [AuthProvider]. *)
Definition initial_AuthState : AuthState :=
  {| loading := false; user := None; userLoading := true; loggedIn := false |}.

Inductive StateUpdate : Type :=
| SetLoading (b : bool)
| SetUser (u : option User)
| SetUserLoading (b : bool)
| SetLoggedin (b : bool).

Definition apply_update (u : StateUpdate) (s : AuthState) : AuthState :=
  match u with
  | SetLoading b =>
      {| loading := b; user := user s; userLoading := userLoading s; loggedIn := loggedIn s |}
  | SetUser v =>
      {| loading := loading s; user := v; userLoading := userLoading s; loggedIn := loggedIn s |}
  | SetUserLoading b =>
      {| loading := loading s; user := user s; userLoading := b; loggedIn := loggedIn s |}
  | SetLoggedin b =>
      {| loading := loading s; user := user s; userLoading := userLoading s; loggedIn := b |}
  end.

(** Externally visible actions, in program order. *)
Inductive Event : Type :=
| EvSet (u : StateUpdate)
| EvSdkSignUp (payload : SupabaseAuthPayload)
| EvSdkSignIn (creds : SignInCredentials)
| EvSdkSignOut
| EvSdkUser
| EvSdkOnAuthStateChange
| EvUnsubscribe
| EvMessage (m : MessageProps)
| EvFetch (req : Request)
| EvRouterPush (route : string)
| EvConsoleLog (label : string) (event : AuthChangeEvent) (session : option Session)
| EvPreventDefault
| EvPersist.

(** What the code takes from outside [src/]: the route constants of
    [config], the message context, the platform ([JSON.stringify],
    [fetch]) and the behaviour of the provider SDK. *)
Record Env : Type := {
  ROUTE_HOME : string;
  ROUTE_AUTH : string;
  (** whether [useMessage()] yields a [handleMessage] function *)
  handleMessage_defined : bool;
  JSON_stringify : SessionSyncBody -> string;
  fetch : Request -> Settled unit;
  supabase_auth_signUp : SupabaseAuthPayload -> Settled AuthResponse;
  supabase_auth_signIn : SignInCredentials -> Settled AuthResponse;
  supabase_auth_signOut : Settled (option ApiError);
  supabase_auth_user : option User
}.

(** ** The handler monad *)

Definition M (St A : Type) : Type := St -> Completion A * St * list Event.

Definition ret {St A} (a : A) : M St A := fun s => (Normal a, s, []).

Definition bind {St A B} (m : M St A) (k : A -> M St B) : M St B :=
  fun s =>
    match m s with
    | (Normal a, s1, t1) => let '(c, s2, t2) := k a s1 in (c, s2, t1 ++ t2)
    | (Throw e, s1, t1) => (Throw e, s1, t1)
    end.

#[global] Instance M_ret {St} : MRet (M St) := @ret St.
#[global] Instance M_bind {St} : MBind (M St) := fun A B k m => bind m k.

Definition throw {St A} (e : JsVal) : M St A := fun s => (Throw e, s, []).

Definition emit {St} (ev : Event) : M St unit := fun s => (Normal tt, s, [ev]).

Definition lift {St A} (c : Completion A) : M St A := fun s => (c, s, []).

(** [await p]. *)
Definition await {St A} (p : Settled A) : M St A :=
  match p with
  | Fulfilled a => ret a
  | Rejected e => throw e
  end.

(** [try { m } catch (error) { h error }]. *)
Definition try_catch {St A} (m : M St A) (h : JsVal -> M St A) : M St A :=
  fun s =>
    match m s with
    | (Throw e, s1, t1) => let '(c, s2, t2) := h e s1 in (c, s2, t1 ++ t2)
    | r => r
    end.

(** [try { m } finally { f }]: [f] runs on both completions of [m]; the
    completion of [m] stands unless [f] itself throws. *)
Definition try_finally {St A} (m : M St A) (f : M St unit) : M St A :=
  fun s =>
    let '(c, s1, t1) := m s in
    match f s1 with
    | (Normal _, s2, t2) => (c, s2, t1 ++ t2)
    | (Throw e, s2, t2) => (Throw e, s2, t1 ++ t2)
    end.

Definition outcome {St A} (r : Completion A * St * list Event) : Completion A := r.1.1.
Definition final {St A} (r : Completion A * St * list Event) : St := r.1.2.
Definition events {St A} (r : Completion A * St * list Event) : list Event := r.2.

(** ** Projections of a trace *)

Definition messages (t : list Event) : list MessageProps :=
  omap (fun ev => match ev with EvMessage m => Some m | _ => None end) t.

Definition navigations (t : list Event) : list string :=
  omap (fun ev => match ev with EvRouterPush r => Some r | _ => None end) t.

Definition requests (t : list Event) : list Request :=
  omap (fun ev => match ev with EvFetch r => Some r | _ => None end) t.

Definition is_sdk_call (ev : Event) : bool :=
  match ev with
  | EvSdkSignUp _ | EvSdkSignIn _ | EvSdkSignOut | EvSdkUser
  | EvSdkOnAuthStateChange => true
  | _ => false
  end.

Definition sdk_calls (t : list Event) : list Event := filter (fun ev => is_sdk_call ev = true) t.

Definition loading_updates (t : list Event) : list bool :=
  omap (fun ev => match ev with EvSet (SetLoading b) => Some b | _ => None end) t.

(** ** src/lib/utils.ts *)

Record ChangeTarget : Type := {
  name : string;
  value : string
}.

Record ChangeEvent : Type := {
  target : ChangeTarget
}.

(** The setter of the hook's [useState] cell. *)
Definition setValues (v : gmap string string) : M (gmap string string) unit :=
  fun _ => (Normal tt, v, []).

(** [handleChange] of [useFormFields], as created in a render whose state
    is [values]: it hands [{ ...values, [name]: value }] to [setValues], so
    the state cell becomes that object whatever it held meanwhile. *)
Definition handleChange (values : gmap string string) (event : ChangeEvent)
  : M (gmap string string) unit :=
  emit EvPersist;;
  let target := target event in
  let name := name target in
  let value := value target in
  setValues (<[name := value]> values).

(** [useFormFields]: the pair the hook returns in a render whose state is
    [values]. *)
Definition useFormFields (values : gmap string string)
  : gmap string string * (ChangeEvent -> M (gmap string string) unit) :=
  (values, handleChange values).

(** The state after a change event is handled in a render of state
    [values]. *)
Definition after_change (values : gmap string string) (event : ChangeEvent)
  : gmap string string :=
  final ((useFormFields values).2 event values).

(** Template-literal substitution [${x}] of a string that may be
    [undefined]. *)
Definition template (x : option string) : string := default "undefined" x.

(** ** Handlers that run against the environment *)

Section Handlers.
Context (env : Env).

(** Modelled from the spec: [handleMessage] of the message context
    ([lib/message], not among the sources) surfaces a user-visible
    message, the "error or success banner". Calling it when the context
    yields none is a call of [undefined]. *)
Definition handleMessage {St} (m : MessageProps) : M St unit :=
  if handleMessage_defined env then emit (EvMessage m)
  else throw (TypeError "handleMessage is not a function").

Definition Router_push {St} (route : string) : M St unit := emit (EvRouterPush route).

(** *** The sign-up page *)

(** the value we'd like to initialize the SignUp form with *)
Definition FORM_VALUES : gmap string string :=
  <["email" := ""]> (<["password" := ""]> ∅).

(** [onClick] of the form's submit button, in a render whose form state
    is [values]. *)
Definition IndexPage_onClick {St} (values : gmap string string) : M St unit :=
  emit EvPreventDefault;;
  handleMessage {| message := JStr ("will sign up with " +:+ template (values !! "email"));
                   type := None |}.

(** *** AuthProvider *)

Definition set_state (u : StateUpdate) : M AuthState unit :=
  fun s => (Normal tt, apply_update u s, [EvSet u]).

Definition setLoading (b : bool) : M AuthState unit := set_state (SetLoading b).
Definition setUser (u : option User) : M AuthState unit := set_state (SetUser u).
Definition setUserLoading (b : bool) : M AuthState unit := set_state (SetUserLoading b).
Definition setLoggedin (b : bool) : M AuthState unit := set_state (SetLoggedin b).

(** The [catch (error)] block shared by [signUp] and [signIn]. *)
Definition catch_block (error : JsVal) : M AuthState unit :=
  description ← lift (get_prop error "error_description");
  handleMessage {| message := js_or description error; type := Some "error" |}.

Definition signUp (payload : SupabaseAuthPayload) : M AuthState unit :=
  try_finally
    (try_catch
       (setLoading true;;
        response ← (emit (EvSdkSignUp payload);;
                    await (supabase_auth_signUp env payload));
        match resp_error response with
        | Some error =>
            if handleMessage_defined env
            then handleMessage {| message := JStr (error_message error);
                                  type := Some "error" |}
            else mret tt
        | None =>
            handleMessage
              {| message :=
                   JStr "Signup successful. Please check your inbox for a confirmation email!";
                 type := Some "success" |}
        end)
       catch_block)
    (setLoading false).

Definition signIn (payload : SupabaseAuthPayload) : M AuthState unit :=
  try_finally
    (try_catch
       (setLoading true;;
        response ← (emit (EvSdkSignIn (WithPassword payload));;
                    await (supabase_auth_signIn env (WithPassword payload)));
        match resp_error response with
        | Some error =>
            handleMessage {| message := JStr (error_message error); type := Some "error" |}
        | None =>
            match resp_user response with
            | Some user =>
                handleMessage {| message := JStr ("Welcome, " +:+ template (user_email user));
                                 type := Some "success" |}
            | None =>
                throw (TypeError "Cannot read properties of null (reading 'email')")
            end
        end)
       catch_block)
    (setLoading false).

(** [signIn] of the provider's earlier variant, which the file also
    carries: it differs in not reading [user] and in its success text. *)
Definition signIn_basic (payload : SupabaseAuthPayload) : M AuthState unit :=
  try_finally
    (try_catch
       (setLoading true;;
        response ← (emit (EvSdkSignIn (WithPassword payload));;
                    await (supabase_auth_signIn env (WithPassword payload)));
        match resp_error response with
        | Some error =>
            handleMessage {| message := JStr (error_message error); type := Some "error" |}
        | None =>
            handleMessage
              {| message := JStr "Log in successful. I'll redirect you once I'm done";
                 type := Some "success" |}
        end)
       catch_block)
    (setLoading false).

Definition signInWithGithub : M AuthState unit :=
  emit EvPreventDefault;;
  emit (EvSdkSignIn (WithProvider "github"));;
  _ ← await (supabase_auth_signIn env (WithProvider "github"));
  mret tt.

Definition signOut : M AuthState (option ApiError) :=
  emit EvSdkSignOut;;
  await (supabase_auth_signOut env).

(** The request [setServerSession] hands to [fetch]. *)
Definition sync_request (event : AuthChangeEvent) (session : option Session) : Request :=
  {| url := "/api/auth";
     method := "POST";
     headers := [("Content-Type", "application/json")];
     credentials := "same-origin";
     body := JSON_stringify env {| body_event := event; body_session := session |} |}.

Definition setServerSession (event : AuthChangeEvent) (session : option Session)
  : M AuthState unit :=
  emit (EvFetch (sync_request event session));;
  await (fetch env (sync_request event session)).

(** The callback registered with [supabase.auth.onAuthStateChange]. *)
Definition onAuthStateChange_handler (event : AuthChangeEvent) (session : option Session)
  : M AuthState unit :=
  emit (EvConsoleLog "authListener" event session);;
  let user := session ≫= session_user in
  setUserLoading false;;
  setServerSession event session;;
  match user with
  | Some _ =>
      setUser user;;
      setLoggedin true;;
      Router_push (ROUTE_HOME env)
  | None =>
      setUser None;;
      Router_push (ROUTE_AUTH env)
  end.

(** The body of the mount effect, up to the subscription. *)
Definition AuthProvider_effect : M AuthState unit :=
  emit EvSdkUser;;
  let user := supabase_auth_user env in
  match user with
  | Some _ =>
      setUser user;;
      setUserLoading false;;
      setLoggedin true;;
      Router_push (ROUTE_HOME env)
  | None => mret tt
  end;;
  emit EvSdkOnAuthStateChange.

(** The effect's cleanup. *)
Definition AuthProvider_cleanup : M AuthState unit := emit EvUnsubscribe.

End Handlers.

(** ** The two credential operations, side by side *)

Inductive CredentialOp : Type :=
| OpSignUp
| OpSignIn
| OpSignInBasic.

Definition run_credential (env : Env) (op : CredentialOp)
  : SupabaseAuthPayload -> M AuthState unit :=
  match op with
  | OpSignUp => signUp env
  | OpSignIn => signIn env
  | OpSignInBasic => signIn_basic env
  end.

(** The SDK call an operation makes, and what the SDK answers to it. *)
Definition sdk_call_of (op : CredentialOp) (payload : SupabaseAuthPayload) : Event :=
  match op with
  | OpSignUp => EvSdkSignUp payload
  | OpSignIn | OpSignInBasic => EvSdkSignIn (WithPassword payload)
  end.

Definition sdk_answer (env : Env) (op : CredentialOp) (payload : SupabaseAuthPayload)
  : Settled AuthResponse :=
  match op with
  | OpSignUp => supabase_auth_signUp env payload
  | OpSignIn | OpSignInBasic => supabase_auth_signIn env (WithPassword payload)
  end.

(** The route the provider picks for a user that is present or absent. *)
Definition route_for (env : Env) (u : option User) : string :=
  match u with
  | Some _ => ROUTE_HOME env
  | None => ROUTE_AUTH env
  end.

(** ** Everything the provider does

    The operations of [AuthProvider] as one type, for statements about
    "every" operation. *)

Inductive ProviderAction : Type :=
| ActMount
| ActNotify (event : AuthChangeEvent) (session : option Session)
| ActSignUp (payload : SupabaseAuthPayload)
| ActSignIn (payload : SupabaseAuthPayload)
| ActSignInWithGithub
| ActSignOut
| ActCleanup.

Definition action_trace (env : Env) (a : ProviderAction) (s : AuthState) : list Event :=
  match a with
  | ActMount => events (AuthProvider_effect env s)
  | ActNotify event session => events (onAuthStateChange_handler env event session s)
  | ActSignUp payload => events (signUp env payload s)
  | ActSignIn payload => events (signIn env payload s)
  | ActSignInWithGithub => events (signInWithGithub env s)
  | ActSignOut => events (signOut env s)
  | ActCleanup => events (AuthProvider_cleanup s)
  end.

(** The two actions that look at a user: the mount effect at
    [supabase.auth.user()], the listener at [session?.user ?? null]. *)
Definition looks_at_user (a : ProviderAction) : bool :=
  match a with
  | ActMount | ActNotify _ _ => true
  | _ => false
  end.

Definition user_seen (env : Env) (a : ProviderAction) : option User :=
  match a with
  | ActMount => supabase_auth_user env
  | ActNotify _ session => session ≫= session_user
  | _ => None
  end.

(** ** Sample data *)

Definition alice : User :=
  {| user_id := "16a86e03"; user_email := Some "alice@example.org" |}.

Definition alice_session : Session :=
  {| access_token := "at"; refresh_token := "rt"; session_user := Some alice |}.

Definition alice_payload : SupabaseAuthPayload :=
  {| email := "alice@example.org"; password := "correct horse" |}.

Definition network_error : JsVal := TypeError "Failed to fetch".

Definition already_registered : ApiError :=
  {| error_message := "User already registered"; error_status := 400 |}.

Definition signed_in_response : AuthResponse :=
  {| resp_user := Some alice; resp_session := Some alice_session; resp_error := None |}.

Definition refused_response : AuthResponse :=
  {| resp_user := None; resp_session := None; resp_error := Some already_registered |}.

(** Everything answers. *)
Definition env_online : Env :=
  {| ROUTE_HOME := "/";
     ROUTE_AUTH := "/auth";
     handleMessage_defined := true;
     JSON_stringify := fun _ => "{}";
     fetch := fun _ => Fulfilled tt;
     supabase_auth_signUp := fun _ => Fulfilled signed_in_response;
     supabase_auth_signIn := fun _ => Fulfilled signed_in_response;
     supabase_auth_signOut := Fulfilled None;
     supabase_auth_user := Some alice |}.

(** The provider answers every call with an error value. *)
Definition env_refusing : Env :=
  {| ROUTE_HOME := "/";
     ROUTE_AUTH := "/auth";
     handleMessage_defined := true;
     JSON_stringify := fun _ => "{}";
     fetch := fun _ => Fulfilled tt;
     supabase_auth_signUp := fun _ => Fulfilled refused_response;
     supabase_auth_signIn := fun _ => Fulfilled refused_response;
     supabase_auth_signOut := Fulfilled (Some already_registered);
     supabase_auth_user := None |}.

(** The network is down: every promise rejects. *)
Definition env_offline : Env :=
  {| ROUTE_HOME := "/";
     ROUTE_AUTH := "/auth";
     handleMessage_defined := true;
     JSON_stringify := fun _ => "{}";
     fetch := fun _ => Rejected network_error;
     supabase_auth_signUp := fun _ => Rejected network_error;
     supabase_auth_signIn := fun _ => Rejected network_error;
     supabase_auth_signOut := Rejected network_error;
     supabase_auth_user := None |}.

Definition signed_in_state : AuthState :=
  {| loading := false; user := Some alice; userLoading := false; loggedIn := true |}.

Definition type_email : ChangeEvent :=
  {| target := {| name := "email"; value := "alice@example.org" |} |}.

Definition type_password : ChangeEvent :=
  {| target := {| name := "password"; value := "correct horse" |} |}.

(** The form state after both fields were typed into. *)
Definition filled_form : gmap string string :=
  after_change (after_change FORM_VALUES type_email) type_password.

(** ** Sequences of events *)

(** The form state after a sequence of change events, each handled by the
    [handleChange] of the render that follows the previous event. *)
Definition type_all (values : gmap string string) (evs : list ChangeEvent)
  : gmap string string :=
  foldl after_change values evs.

(** The value carried by the last event of [evs] that targets [field]. *)
Fixpoint last_typed (field : string) (evs : list ChangeEvent) : option string :=
  match evs with
  | [] => None
  | ev :: rest =>
      match last_typed field rest with
      | Some v => Some v
      | None =>
          if decide (name (target ev) = field) then Some (value (target ev)) else None
      end
  end.

(** The names targeted by a sequence of change events. *)
Definition targeted (evs : list ChangeEvent) : gset string :=
  list_to_set (map (fun ev => name (target ev)) evs).

(** The provider's state after the listener has handled the notifications
    [ns] one after the other, each run to its end before the next one
    arrives; a run that ends abruptly leaves the state it reached. *)
Definition process_all (env : Env) (s : AuthState)
    (ns : list (AuthChangeEvent * option Session)) : AuthState :=
  foldl (fun s n => final (onAuthStateChange_handler env n.1 n.2 s)) s ns.

(** Whether the session sync of a notification is fulfilled. *)
Definition synced (env : Env) (n : AuthChangeEvent * option Session) : bool :=
  match fetch env (sync_request env n.1 n.2) with
  | Fulfilled _ => true
  | Rejected _ => false
  end.

(** [null] and [undefined]. *)
Definition is_nullish (v : JsVal) : bool :=
  match v with
  | JUndefined | JNull => true
  | _ => false
  end.

(** As [env_online], with no message handler in the context. *)
Definition env_no_banner : Env :=
  {| ROUTE_HOME := "/";
     ROUTE_AUTH := "/auth";
     handleMessage_defined := false;
     JSON_stringify := fun _ => "{}";
     fetch := fun _ => Fulfilled tt;
     supabase_auth_signUp := fun _ => Fulfilled signed_in_response;
     supabase_auth_signIn := fun _ => Fulfilled signed_in_response;
     supabase_auth_signOut := Fulfilled None;
     supabase_auth_user := Some alice |}.

(** The provider resolves a sign-in with neither an error nor a user. *)
Definition pending_response : AuthResponse :=
  {| resp_user := None; resp_session := None; resp_error := None |}.

Definition env_pending : Env :=
  {| ROUTE_HOME := "/";
     ROUTE_AUTH := "/auth";
     handleMessage_defined := true;
     JSON_stringify := fun _ => "{}";
     fetch := fun _ => Fulfilled tt;
     supabase_auth_signUp := fun _ => Fulfilled pending_response;
     supabase_auth_signIn := fun _ => Fulfilled pending_response;
     supabase_auth_signOut := Fulfilled None;
     supabase_auth_user := None |}.

(** The SDK rejects with [undefined]. *)
Definition env_rejecting_undefined : Env :=
  {| ROUTE_HOME := "/";
     ROUTE_AUTH := "/auth";
     handleMessage_defined := true;
     JSON_stringify := fun _ => "{}";
     fetch := fun _ => Fulfilled tt;
     supabase_auth_signUp := fun _ => Rejected JUndefined;
     supabase_auth_signIn := fun _ => Rejected JUndefined;
     supabase_auth_signOut := Rejected JUndefined;
     supabase_auth_user := None |}.

(** * Properties *)

(** ** The monad's combinators *)

(** A [finally] block runs after the protected block on either completion:
    its events follow the block's, and it has the last word on the state. *)
Lemma try_finally_events {St A} (m : M St A) (f : M St unit) (s : St) :
  events (try_finally m f s) = events (m s) ++ events (f (final (m s))).
Proof.
  unfold try_finally, events, final.
  destruct (m s) as [[c s1] t1]; simpl.
  destruct (f s1) as [[[[]|e] s2] t2]; reflexivity.
Qed.

Lemma try_finally_final {St A} (m : M St A) (f : M St unit) (s : St) :
  final (try_finally m f s) = final (f (final (m s))).
Proof.
  unfold try_finally, final.
  destruct (m s) as [[c s1] t1]; simpl.
  destruct (f s1) as [[[[]|e] s2] t2]; reflexivity.
Qed.

(** Unfolds a handler down to the answers of the environment. *)
Ltac run_handler :=
  unfold action_trace, run_credential, signUp, signIn, signIn_basic,
    signInWithGithub, signOut,
    onAuthStateChange_handler, AuthProvider_effect, AuthProvider_cleanup,
    setServerSession,
    IndexPage_onClick, catch_block, handleMessage,
    setLoading, setUser, setUserLoading, setLoggedin, Router_push, set_state,
    try_finally, try_catch, await, lift, emit, throw,
    outcome, final, events, mbind, M_bind, bind, mret, M_ret, ret;
  simpl.

(** ** useFormFields *)

(** C9. For every form state and every change event, the [handleChange]
    returned by [useFormFields] sets the field named by the event's target
    to the target's value, and every field with another name keeps what it
    had (a field that was absent stays absent). *)
Theorem handleChange_updates_only_named_field
    (values : gmap string string) (event : ChangeEvent) :
  let values' := final ((useFormFields values).2 event values) in
  values' !! name (target event) = Some (value (target event)) ∧
  ∀ field : string, field ≠ name (target event) → values' !! field = values !! field.
Proof.
  simpl. unfold handleChange, setValues. run_handler. split.
  - apply lookup_insert_eq.
  - intros field Hne. apply lookup_insert_ne. congruence.
Qed.

Lemma handleChange_updates_only_named_field_witness :
  "password" ≠ name (target type_email) ∧
  final ((useFormFields FORM_VALUES).2 type_email FORM_VALUES) !! "password"
  = FORM_VALUES !! "password".
Proof.
  split.
  - discriminate.
  - apply (proj2 (handleChange_updates_only_named_field FORM_VALUES type_email)).
    discriminate.
Defined.

(** ** signUp and signIn *)

(** C10. Every invocation of [signUp] or [signIn], whatever the SDK does
    (resolves without error, resolves with an error value, rejects) and
    whatever the handlers do afterwards, first sets [loading] to [true],
    then calls the SDK, and ends by setting [loading] to [false]: these are
    the only two updates of the flag, the SDK is called once, and the flag
    is [false] in the final state. *)
Theorem loading_brackets_the_sdk_call
    (env : Env) (op : CredentialOp) (payload : SupabaseAuthPayload) (s : AuthState) :
  let r := run_credential env op payload s in
  take 2 (events r) = [EvSet (SetLoading true); sdk_call_of op payload] ∧
  last (events r) = Some (EvSet (SetLoading false)) ∧
  loading_updates (events r) = [true; false] ∧
  sdk_calls (events r) = [sdk_call_of op payload] ∧
  loading (final r) = false.
Proof.
  destruct op; run_handler; repeat case_match; simplify_eq; simpl; done.
Qed.

(** C5. When the SDK call of [signUp] or [signIn] resolves with an error
    value, every message shown during the invocation is the provider's
    error message with type ['error'], and with a message handler in place
    exactly that one message is shown. *)
Theorem sdk_error_value_is_shown
    (env : Env) (op : CredentialOp) (payload : SupabaseAuthPayload) (s : AuthState)
    (response : AuthResponse) (error : ApiError) :
  sdk_answer env op payload = Fulfilled response ->
  resp_error response = Some error ->
  let shown := messages (events (run_credential env op payload s)) in
  let provider_message :=
    {| message := JStr (error_message error); type := Some "error" |} in
  (∀ m, m ∈ shown → m = provider_message) ∧
  (handleMessage_defined env = true → shown = [provider_message]).
Proof.
  intros Hanswer Herror.
  destruct op; simpl in Hanswer; run_handler; rewrite Hanswer; simpl;
    rewrite Herror; destruct (handleMessage_defined env); simpl;
    (split; [ intros m Hm | intros Hd; first [reflexivity | discriminate] ]);
    repeat match goal with
           | H : _ ∈ [] |- _ => apply elem_of_nil in H; destruct H
           | H : _ ∈ _ :: _ |- _ => apply elem_of_cons in H; destruct H as [H|H]
           end; congruence.
Qed.

Lemma sdk_error_value_is_shown_witness :
  messages (events (run_credential env_refusing OpSignIn alice_payload initial_AuthState))
  = [ {| message := JStr "User already registered"; type := Some "error" |} ].
Proof.
  apply (proj2 (sdk_error_value_is_shown env_refusing OpSignIn alice_payload
                  initial_AuthState refused_response already_registered
                  eq_refl eq_refl)).
  reflexivity.
Defined.

(** C6. When the SDK call of [signUp] resolves without an error, the
    success message is shown (by the message handler the page is given): it
    is the one message of the invocation. *)
Theorem signUp_success_is_announced
    (env : Env) (payload : SupabaseAuthPayload) (s : AuthState) (response : AuthResponse) :
  supabase_auth_signUp env payload = Fulfilled response ->
  resp_error response = None ->
  handleMessage_defined env = true ->
  messages (events (signUp env payload s))
  = [ {| message :=
           JStr "Signup successful. Please check your inbox for a confirmation email!";
         type := Some "success" |} ]
  ∧ outcome (signUp env payload s) = Normal tt.
Proof.
  intros Hanswer Herror Hd.
  run_handler. rewrite Hanswer; simpl. rewrite Herror, Hd. simpl. done.
Qed.

Lemma signUp_success_is_announced_witness :
  messages (events (signUp env_online alice_payload initial_AuthState))
  = [ {| message :=
           JStr "Signup successful. Please check your inbox for a confirmation email!";
         type := Some "success" |} ]
  ∧ outcome (signUp env_online alice_payload initial_AuthState) = Normal tt.
Proof.
  apply (signUp_success_is_announced env_online alice_payload initial_AuthState
           signed_in_response eq_refl eq_refl eq_refl).
Defined.

(** Sibling behaviour, for comparison with the two operations below: a
    rejection of the SDK call of [signUp] or [signIn] with a reason that is
    an object is caught, shown with type ['error'], and the handler
    completes normally. *)
Lemma credential_rejection_is_caught
    (env : Env) (op : CredentialOp) (payload : SupabaseAuthPayload) (s : AuthState)
    (props : list (string * JsVal)) :
  sdk_answer env op payload = Rejected (JObj props) ->
  handleMessage_defined env = true ->
  outcome (run_credential env op payload s) = Normal tt ∧
  messages (events (run_credential env op payload s))
  = [ {| message := js_or (assoc "error_description" props) (JObj props);
         type := Some "error" |} ].
Proof.
  intros Hanswer Hd.
  destruct op; simpl in Hanswer; run_handler; rewrite Hanswer; simpl;
    rewrite Hd; simpl; done.
Qed.

(** [signInWithGithub] and [signOut] have no handler around the awaited
    call: whatever reason the SDK rejects with leaves the function as its
    own rejection, and nothing is shown. *)
Lemma unguarded_rejection_propagates (env : Env) (s : AuthState) (e e' : JsVal) :
  supabase_auth_signIn env (WithProvider "github") = Rejected e ->
  supabase_auth_signOut env = Rejected e' ->
  outcome (signInWithGithub env s) = Throw e ∧
  messages (events (signInWithGithub env s)) = [] ∧
  outcome (signOut env s) = Throw e' ∧
  messages (events (signOut env s)) = [].
Proof.
  intros Hin Hout. run_handler. rewrite Hin, Hout. simpl. done.
Qed.

(** C2, at the failing input: with the network down, the rejection of the
    SDK call escapes [signInWithGithub] and [signOut] uncaught and no
    message is shown, while [signUp] and [signIn] on the same environment
    catch it and show it. *)
Theorem github_and_signOut_rejections_escape :
  let github := signInWithGithub env_offline initial_AuthState in
  let out := signOut env_offline initial_AuthState in
  let up := signUp env_offline alice_payload initial_AuthState in
  let inn := signIn env_offline alice_payload initial_AuthState in
  (outcome github = Throw network_error ∧ messages (events github) = []) ∧
  (outcome out = Throw network_error ∧ messages (events out) = []) ∧
  (outcome up = Normal tt ∧
   messages (events up) = [ {| message := network_error; type := Some "error" |} ]) ∧
  (outcome inn = Normal tt ∧
   messages (events inn) = [ {| message := network_error; type := Some "error" |} ]).
Proof. vm_compute. done. Qed.

(** ** The auth-state-change listener *)

(** C7. For every notification [{event, session}] the listener issues
    exactly one request: a POST to [/api/auth] (a path on the page's own
    origin, with same-origin credentials) whose only header is
    [Content-Type: application/json] and whose body is
    [JSON.stringify({ event, session })]. *)
Theorem session_sync_posts_the_notification
    (env : Env) (event : AuthChangeEvent) (session : option Session) (s : AuthState) :
  requests (events (onAuthStateChange_handler env event session s))
  = [ {| url := "/api/auth";
         method := "POST";
         headers := [("Content-Type", "application/json")];
         credentials := "same-origin";
         body := JSON_stringify env {| body_event := event; body_session := session |} |} ].
Proof.
  run_handler. unfold sync_request.
  destruct (fetch env _) as [[]|e]; [destruct session as [[? ? [u|]]|] |]; reflexivity.
Qed.

(** C8. Whatever the provider does, it navigates at most to the route
    picked by the user it looked at, the home route when that user is
    present and the auth route when absent; the operations that look at no
    user ([signUp], [signIn], [signInWithGithub], [signOut], the cleanup)
    do not navigate at all. *)
Theorem navigation_follows_user_presence
    (env : Env) (a : ProviderAction) (s : AuthState) :
  let targets := navigations (action_trace env a s) in
  if looks_at_user a
  then Forall (fun route => route = route_for env (user_seen env a)) targets
  else targets = [].
Proof.
  destruct a as [|event session| | | | |]; run_handler.
  - destruct (supabase_auth_user env); repeat constructor.
  - destruct session as [[? ? [u|]]|]; simpl;
      destruct (fetch env _) as [[]|e]; simpl; repeat constructor.
  - repeat case_match; simplify_eq; reflexivity.
  - repeat case_match; simplify_eq; reflexivity.
  - repeat case_match; simplify_eq; reflexivity.
  - repeat case_match; simplify_eq; reflexivity.
  - reflexivity.
Qed.

(** The listener updates nothing but [userLoading] before it awaits the
    session sync; when that request rejects, the rejection ends the
    listener there: the user is left as it was and nothing is navigated
    to. *)
Lemma listener_stops_at_failed_sync
    (env : Env) (event : AuthChangeEvent) (session : option Session) (s : AuthState)
    (e : JsVal) :
  fetch env (sync_request env event session) = Rejected e ->
  let r := onAuthStateChange_handler env event session s in
  outcome r = Throw e ∧ user (final r) = user s ∧ navigations (events r) = [].
Proof.
  intros Hfetch. run_handler. rewrite Hfetch. simpl. done.
Qed.

(** C3, as stated, fails: a signed-out notification that arrives while the
    session sync cannot reach the server leaves the user in place and
    navigates nowhere. *)
Lemma signed_out_while_offline_keeps_user :
  let r := onAuthStateChange_handler env_offline SIGNED_OUT None signed_in_state in
  user (final r) ≠ None ∧ ROUTE_AUTH env_offline ∉ navigations (events r).
Proof.
  vm_compute. split; [discriminate | intros H; inversion H].
Qed.

(** C3, amended. Whenever the listener receives a notification whose
    session carries no user and the session-sync request it awaits first is
    fulfilled, the user state is cleared and the one navigation is to the
    auth route. *)
Theorem signed_out_clears_user_after_sync
    (env : Env) (event : AuthChangeEvent) (session : option Session) (s : AuthState) :
  session ≫= session_user = None ->
  fetch env (sync_request env event session) = Fulfilled tt ->
  let r := onAuthStateChange_handler env event session s in
  outcome r = Normal tt ∧
  user (final r) = None ∧
  navigations (events r) = [ROUTE_AUTH env].
Proof.
  intros Huser Hfetch. run_handler. rewrite Hfetch. simpl.
  destruct session as [[? ? [u|]]|]; simpl in *; [discriminate | done | done].
Qed.

Lemma signed_out_clears_user_after_sync_witness :
  let r := onAuthStateChange_handler env_online SIGNED_OUT None signed_in_state in
  outcome r = Normal tt ∧
  user (final r) = None ∧
  navigations (events r) = [ROUTE_AUTH env_online].
Proof.
  apply (signed_out_clears_user_after_sync env_online SIGNED_OUT None signed_in_state
           eq_refl eq_refl).
Defined.

(** C4, as stated, fails: a signed-in notification processed while the
    session sync cannot reach the server leaves the user state empty
    although the session carries a user. *)
Lemma signed_in_while_offline_not_mirrored :
  let r := onAuthStateChange_handler env_offline SIGNED_IN (Some alice_session)
             initial_AuthState in
  user (final r) ≠ Some alice_session ≫= session_user.
Proof.
  vm_compute. discriminate.
Qed.

(** C4, amended. After a notification whose session-sync request is
    fulfilled, the user state equals the user carried by the
    notification's session, or null when the session is null or carries no
    user. *)
Theorem user_mirrors_notification_after_sync
    (env : Env) (event : AuthChangeEvent) (session : option Session) (s : AuthState) :
  fetch env (sync_request env event session) = Fulfilled tt ->
  let r := onAuthStateChange_handler env event session s in
  outcome r = Normal tt ∧ user (final r) = session ≫= session_user.
Proof.
  intros Hfetch. run_handler. rewrite Hfetch. simpl.
  destruct session as [[? ? [u|]]|]; simpl; done.
Qed.

Lemma user_mirrors_notification_after_sync_witness :
  let r := onAuthStateChange_handler env_online SIGNED_IN (Some alice_session)
             initial_AuthState in
  outcome r = Normal tt ∧ user (final r) = Some alice.
Proof.
  apply (user_mirrors_notification_after_sync env_online SIGNED_IN (Some alice_session)
           initial_AuthState eq_refl).
Defined.

(** ** The sign-up page *)

Lemma filled_form_fields :
  filled_form !! "email" = Some "alice@example.org" ∧
  filled_form !! "password" = Some "correct horse".
Proof.
  unfold filled_form, after_change, handleChange, setValues; run_handler. split.
  - rewrite lookup_insert_ne by discriminate. apply lookup_insert_eq.
  - apply lookup_insert_eq.
Qed.

(** C1, as stated, fails: with both fields filled in, the submit button's
    handler makes no sign-up call with those inputs (it makes no SDK call
    at all). *)
Lemma submit_makes_no_signUp_call :
  filled_form !! "email" = Some (email alice_payload) ∧
  filled_form !! "password" = Some (password alice_payload) ∧
  EvSdkSignUp alice_payload ∉ events (IndexPage_onClick env_online filled_form tt).
Proof.
  destruct filled_form_fields as [He Hp].
  split; [exact He | split; [exact Hp |]].
  run_handler. rewrite He. simpl.
  intros H. repeat (apply elem_of_cons in H; destruct H as [H|H]; [discriminate |]).
  inversion H.
Qed.

(** C1, amended. Submitting the page's form prevents the default
    submission and hands the message context the text
    [will sign up with <email>] (no message type), calling nothing of the
    SDK; the provider's [signUp], when it is invoked with a payload, makes
    one SDK call, the sign-up call with exactly that payload. *)
Theorem submit_announces_and_signUp_forwards
    (env : Env) (values : gmap string string) (payload : SupabaseAuthPayload)
    (s : AuthState) :
  let click := IndexPage_onClick env values tt in
  sdk_calls (events click) = [] ∧
  take 1 (events click) = [EvPreventDefault] ∧
  messages (events click)
  = (if handleMessage_defined env
     then [ {| message := JStr ("will sign up with " +:+ template (values !! "email"));
               type := None |} ]
     else []) ∧
  sdk_calls (events (signUp env payload s)) = [EvSdkSignUp payload].
Proof.
  split; [| split; [| split]].
  - run_handler. destruct (handleMessage_defined env); reflexivity.
  - run_handler. destruct (handleMessage_defined env); reflexivity.
  - run_handler. destruct (handleMessage_defined env); reflexivity.
  - run_handler. repeat case_match; simplify_eq; reflexivity.
Qed.

(** * Further properties of the code *)

(** ** useFormFields across events *)

(** X1. Two change events handled by the [handleChange] of one and the same
    render do not add up: the second call writes [{ ...values, [name]: value }]
    from the render's [values], so the state ends as if the first event had
    never happened, and a different field set by the first event is back
    at its old value. *)
Theorem same_render_changes_lose_the_first
    (values : gmap string string) (e1 e2 : ChangeEvent) :
  let h := (useFormFields values).2 in
  let both := final (h e2 (final (h e1 values))) in
  both = final (h e2 values) ∧
  (name (target e1) ≠ name (target e2) →
   both !! name (target e1) = values !! name (target e1)).
Proof.
  simpl. unfold handleChange, setValues. run_handler. split; [reflexivity |].
  intros Hne. apply lookup_insert_ne. congruence.
Qed.

Lemma same_render_changes_lose_the_first_witness :
  final ((useFormFields FORM_VALUES).2 type_password
           (final ((useFormFields FORM_VALUES).2 type_email FORM_VALUES)))
    !! name (target type_email)
  = FORM_VALUES !! name (target type_email).
Proof.
  apply (proj2 (same_render_changes_lose_the_first FORM_VALUES type_email type_password)).
  discriminate.
Defined.

(** X2. Across renders, changes to two different fields both stay and can
    be made in either order. *)
Theorem changes_to_different_fields_commute
    (values : gmap string string) (e1 e2 : ChangeEvent) :
  name (target e1) ≠ name (target e2) ->
  after_change (after_change values e1) e2 = after_change (after_change values e2) e1 ∧
  after_change (after_change values e1) e2 !! name (target e1) = Some (value (target e1)) ∧
  after_change (after_change values e1) e2 !! name (target e2) = Some (value (target e2)).
Proof.
  intros Hne. unfold after_change, useFormFields, handleChange, setValues.
  run_handler. split; [| split].
  - apply insert_insert_ne. congruence.
  - rewrite lookup_insert_ne by congruence. apply lookup_insert_eq.
  - apply lookup_insert_eq.
Qed.

Lemma changes_to_different_fields_commute_witness :
  after_change (after_change FORM_VALUES type_email) type_password
  = after_change (after_change FORM_VALUES type_password) type_email ∧
  after_change (after_change FORM_VALUES type_email) type_password
    !! name (target type_email) = Some (value (target type_email)) ∧
  after_change (after_change FORM_VALUES type_email) type_password
    !! name (target type_password) = Some (value (target type_password)).
Proof.
  apply (changes_to_different_fields_commute FORM_VALUES type_email type_password).
  discriminate.
Defined.

(** X3. Across renders, a later change to the same field replaces the
    earlier one without a trace. *)
Theorem later_change_to_same_field_wins
    (values : gmap string string) (e1 e2 : ChangeEvent) :
  name (target e1) = name (target e2) ->
  after_change (after_change values e1) e2 = after_change values e2.
Proof.
  intros Heq. unfold after_change, useFormFields, handleChange, setValues.
  run_handler. rewrite Heq. apply insert_insert_eq.
Qed.

Lemma later_change_to_same_field_wins_witness :
  after_change (after_change FORM_VALUES type_email) type_email
  = after_change FORM_VALUES type_email.
Proof.
  apply (later_change_to_same_field_wins FORM_VALUES type_email type_email).
  reflexivity.
Defined.

Lemma type_all_cons (values : gmap string string) (ev : ChangeEvent)
    (evs : list ChangeEvent) :
  type_all values (ev :: evs) = type_all (after_change values ev) evs.
Proof. reflexivity. Qed.

Lemma after_change_lookup (values : gmap string string) (ev : ChangeEvent)
    (field : string) :
  after_change values ev !! field
  = if decide (name (target ev) = field) then Some (value (target ev))
    else values !! field.
Proof.
  unfold after_change, useFormFields, handleChange, setValues. run_handler.
  apply lookup_insert.
Qed.

Lemma after_change_dom (values : gmap string string) (ev : ChangeEvent) :
  dom (after_change values ev) = {[ name (target ev) ]} ∪ dom values.
Proof.
  unfold after_change, useFormFields, handleChange, setValues. run_handler.
  apply dom_insert_L.
Qed.

Lemma type_all_lookup
    (values : gmap string string) (evs : list ChangeEvent) (field : string) :
  type_all values evs !! field
  = match last_typed field evs with
    | Some v => Some v
    | None => values !! field
    end.
Proof.
  revert values. induction evs as [|ev evs IH]; intros values; [reflexivity |].
  rewrite type_all_cons, IH. simpl.
  destruct (last_typed field evs); [reflexivity |].
  rewrite after_change_lookup. case_decide; reflexivity.
Qed.

(** X4. After any sequence of change events, one per render, a field holds
    the value of the last event that targeted it, and what it held at the
    start (nothing, if it was absent) when no event did. *)
Theorem field_holds_last_typed_value
    (values : gmap string string) (evs : list ChangeEvent) (field : string) :
  (∀ v, last_typed field evs = Some v → type_all values evs !! field = Some v) ∧
  (last_typed field evs = None → type_all values evs !! field = values !! field).
Proof.
  split; [intros v Hlast | intros Hlast]; rewrite type_all_lookup, Hlast; reflexivity.
Qed.

Lemma field_holds_last_typed_value_witness :
  type_all FORM_VALUES [type_email; type_password; type_email] !! "email"
  = Some "alice@example.org" ∧
  type_all (delete "email" FORM_VALUES) [type_password] !! "email"
  = delete "email" FORM_VALUES !! "email".
Proof.
  split.
  - apply (proj1 (field_holds_last_typed_value FORM_VALUES
                    [type_email; type_password; type_email] "email")).
    reflexivity.
  - apply (proj2 (field_holds_last_typed_value (delete "email" FORM_VALUES)
                    [type_password] "email")).
    reflexivity.
Defined.

(** X5. The hook never drops a field and does not check names against the
    form's shape: after any sequence of change events the fields are those
    of the start together with every name an event targeted. *)
Theorem fields_only_grow (values : gmap string string) (evs : list ChangeEvent) :
  dom (type_all values evs) = dom values ∪ targeted evs.
Proof.
  revert values. induction evs as [|ev evs IH]; intros values.
  - unfold targeted. simpl. symmetry. apply (right_id_L ∅ (∪)).
  - rewrite type_all_cons, IH, after_change_dom. unfold targeted. simpl.
    rewrite (comm_L (∪) {[ name (target ev) ]} (dom values)).
    symmetry. apply (assoc_L (∪)).
Qed.

(** ** The sign-up page with the hook *)

(** X6. Whatever was typed into the page's form, in whatever order and
    into whatever fields, the submit button announces the last value typed
    into the email field, or the empty initial value when nothing was: the
    text never reads [undefined]. *)
Theorem submit_announces_last_typed_email (env : Env) (evs : list ChangeEvent) :
  handleMessage_defined env = true ->
  messages (events (IndexPage_onClick env (type_all FORM_VALUES evs) tt))
  = [ {| message := JStr ("will sign up with " +:+ default "" (last_typed "email" evs));
         type := None |} ].
Proof.
  intros Hd. run_handler. rewrite Hd. simpl.
  rewrite type_all_lookup. destruct (last_typed "email" evs); reflexivity.
Qed.

Lemma submit_announces_last_typed_email_witness :
  messages (events (IndexPage_onClick env_online
                      (type_all FORM_VALUES [type_email; type_password]) tt))
  = [ {| message := JStr "will sign up with alice@example.org"; type := None |} ].
Proof.
  apply (submit_announces_last_typed_email env_online [type_email; type_password]).
  reflexivity.
Defined.

(** X7. What the submit button does depends on the email field alone: a
    change to any other field, the password included, leaves its outcome
    and its trace as they were. *)
Theorem submit_ignores_other_fields
    (env : Env) (values : gmap string string) (ev : ChangeEvent) :
  name (target ev) ≠ "email" ->
  IndexPage_onClick env (after_change values ev) tt = IndexPage_onClick env values tt.
Proof.
  intros Hne. unfold IndexPage_onClick.
  rewrite after_change_lookup. case_decide; [contradiction | reflexivity].
Qed.

Lemma submit_ignores_other_fields_witness :
  IndexPage_onClick env_online (after_change FORM_VALUES type_password) tt
  = IndexPage_onClick env_online FORM_VALUES tt.
Proof.
  apply (submit_ignores_other_fields env_online FORM_VALUES type_password).
  discriminate.
Defined.

(** ** signUp and signIn: frame, absent handler, rejections *)

(** X8. [signUp] and [signIn] touch nothing but the loading flag: on every
    outcome the state ends as it started with [loading] false, and nothing
    is navigated to or fetched. *)
Theorem credential_ops_touch_only_loading
    (env : Env) (op : CredentialOp) (payload : SupabaseAuthPayload) (s : AuthState) :
  let r := run_credential env op payload s in
  final r = apply_update (SetLoading false) s ∧
  navigations (events r) = [] ∧
  requests (events r) = [].
Proof.
  destruct op; run_handler; repeat case_match; simplify_eq; simpl; done.
Qed.

(** X9. With no message handler in the context nothing is ever shown.
    [signUp] passes over an error value of the SDK in silence (its guard)
    and completes; every other path that would show something ([signUp]'s
    success, [signIn] on an error value or on success) ends in the
    [TypeError] of calling [undefined], which leaves the function uncaught
    because the catch block calls the handler again. The loading flag is
    reset all the same. *)
Theorem without_message_handler
    (env : Env) (op : CredentialOp) (payload : SupabaseAuthPayload) (s : AuthState)
    (response : AuthResponse) :
  handleMessage_defined env = false ->
  sdk_answer env op payload = Fulfilled response ->
  let r := run_credential env op payload s in
  messages (events r) = [] ∧
  loading (final r) = false ∧
  outcome r = match op, resp_error response with
              | OpSignUp, Some _ => Normal tt
              | _, _ => Throw (TypeError "handleMessage is not a function")
              end.
Proof.
  intros Hd Hanswer.
  destruct op; simpl in Hanswer; run_handler; rewrite Hanswer; simpl; rewrite ?Hd;
    destruct (resp_error response); simpl; rewrite ?Hd; simpl;
    try destruct (resp_user response); simpl; rewrite ?Hd; done.
Qed.

Lemma without_message_handler_witness :
  let r := run_credential env_no_banner OpSignIn alice_payload initial_AuthState in
  messages (events r) = [] ∧
  loading (final r) = false ∧
  outcome r = Throw (TypeError "handleMessage is not a function").
Proof.
  apply (without_message_handler env_no_banner OpSignIn alice_payload initial_AuthState
           signed_in_response eq_refl eq_refl).
Defined.

(** X10. When the SDK call of [signUp] or [signIn] rejects with [null] or
    [undefined], the catch block fails on reading [error_description]: the
    [TypeError] leaves the function uncaught and nothing is shown, with or
    without a message handler; the loading flag is still reset. *)
Theorem nullish_rejection_escapes
    (env : Env) (op : CredentialOp) (payload : SupabaseAuthPayload) (s : AuthState)
    (e : JsVal) :
  sdk_answer env op payload = Rejected e ->
  is_nullish e = true ->
  let r := run_credential env op payload s in
  outcome r = Throw (TypeError ("Cannot read properties of " +:+ show_nullish e
                                +:+ " (reading 'error_description')")) ∧
  messages (events r) = [] ∧
  loading (final r) = false.
Proof.
  intros Hanswer Hnull.
  destruct op; simpl in Hanswer; run_handler; rewrite Hanswer; simpl;
    destruct e; try discriminate Hnull; simpl; done.
Qed.

Lemma nullish_rejection_escapes_witness :
  let r := run_credential env_rejecting_undefined OpSignUp alice_payload
             initial_AuthState in
  outcome r = Throw (TypeError "Cannot read properties of undefined (reading 'error_description')") ∧
  messages (events r) = [] ∧
  loading (final r) = false.
Proof.
  apply (nullish_rejection_escapes env_rejecting_undefined OpSignUp alice_payload
           initial_AuthState JUndefined eq_refl eq_refl).
Defined.

(** X11. When the SDK call of [signUp] or [signIn] rejects with anything
    else, the rejection is caught and one message of type ['error'] is
    shown: the reason's [error_description] when the reason is an object
    that has a truthy one, and otherwise the reason itself as it was
    thrown (for an [Error] the object, not its [message] text). *)
Theorem rejection_is_shown
    (env : Env) (op : CredentialOp) (payload : SupabaseAuthPayload) (s : AuthState)
    (e : JsVal) :
  sdk_answer env op payload = Rejected e ->
  is_nullish e = false ->
  handleMessage_defined env = true ->
  let r := run_credential env op payload s in
  outcome r = Normal tt ∧
  messages (events r)
  = [ {| message :=
           match e with
           | JObj props =>
               if truthy (assoc "error_description" props)
               then assoc "error_description" props
               else e
           | _ => e
           end;
         type := Some "error" |} ].
Proof.
  intros Hanswer Hnull Hd.
  destruct op; simpl in Hanswer; run_handler; rewrite Hanswer; simpl;
    destruct e; try discriminate Hnull; simpl; rewrite Hd; simpl; done.
Qed.

Lemma rejection_is_shown_witness :
  let r := run_credential env_offline OpSignIn alice_payload initial_AuthState in
  outcome r = Normal tt ∧
  messages (events r) = [ {| message := network_error; type := Some "error" |} ].
Proof.
  apply (rejection_is_shown env_offline OpSignIn alice_payload initial_AuthState
           network_error eq_refl eq_refl eq_refl).
Defined.

(** ** signIn on success *)

(** X12. When the SDK resolves a sign-in without error and with a user,
    [signIn] greets with the email of the user in the SDK's answer (not
    with the email of the payload); a user without an email is greeted as
    [undefined]. *)
Theorem signIn_welcomes_the_answered_user
    (env : Env) (payload : SupabaseAuthPayload) (s : AuthState)
    (response : AuthResponse) (u : User) :
  supabase_auth_signIn env (WithPassword payload) = Fulfilled response ->
  resp_error response = None ->
  resp_user response = Some u ->
  handleMessage_defined env = true ->
  outcome (signIn env payload s) = Normal tt ∧
  messages (events (signIn env payload s))
  = [ {| message := JStr ("Welcome, " +:+ default "undefined" (user_email u));
         type := Some "success" |} ].
Proof.
  intros Hanswer Herror Huser Hd.
  run_handler. rewrite Hanswer; simpl. rewrite Herror, Huser, Hd. simpl. done.
Qed.

Lemma signIn_welcomes_the_answered_user_witness :
  outcome (signIn env_online {| email := "bob@example.org"; password := "pw" |}
             initial_AuthState) = Normal tt ∧
  messages (events (signIn env_online {| email := "bob@example.org"; password := "pw" |}
                      initial_AuthState))
  = [ {| message := JStr "Welcome, alice@example.org"; type := Some "success" |} ].
Proof.
  apply (signIn_welcomes_the_answered_user env_online
           {| email := "bob@example.org"; password := "pw" |} initial_AuthState
           signed_in_response alice eq_refl eq_refl eq_refl eq_refl).
Defined.

(** X13. When the SDK resolves a sign-in with neither an error nor a user,
    [signIn] fails on reading [user.email] inside its own [try]: what the
    user sees is a message of type ['error'] carrying that [TypeError],
    although the SDK reported no error. The earlier variant of [signIn],
    which does not read the user, shows its success text on the same
    answer. *)
Theorem signIn_without_user_shows_an_error
    (env : Env) (payload : SupabaseAuthPayload) (s : AuthState)
    (response : AuthResponse) :
  supabase_auth_signIn env (WithPassword payload) = Fulfilled response ->
  resp_error response = None ->
  resp_user response = None ->
  handleMessage_defined env = true ->
  outcome (signIn env payload s) = Normal tt ∧
  messages (events (signIn env payload s))
  = [ {| message := TypeError "Cannot read properties of null (reading 'email')";
         type := Some "error" |} ] ∧
  messages (events (signIn_basic env payload s))
  = [ {| message := JStr "Log in successful. I'll redirect you once I'm done";
         type := Some "success" |} ].
Proof.
  intros Hanswer Herror Huser Hd.
  run_handler. rewrite Hanswer; simpl. rewrite Herror, Huser, Hd. simpl. done.
Qed.

Lemma signIn_without_user_shows_an_error_witness :
  outcome (signIn env_pending alice_payload initial_AuthState) = Normal tt ∧
  messages (events (signIn env_pending alice_payload initial_AuthState))
  = [ {| message := TypeError "Cannot read properties of null (reading 'email')";
         type := Some "error" |} ] ∧
  messages (events (signIn_basic env_pending alice_payload initial_AuthState))
  = [ {| message := JStr "Log in successful. I'll redirect you once I'm done";
         type := Some "success" |} ].
Proof.
  apply (signIn_without_user_shows_an_error env_pending alice_payload initial_AuthState
           pending_response eq_refl eq_refl eq_refl eq_refl).
Defined.

(** X14. The two variants of [signIn] in the file behave alike whenever the
    SDK does not resolve without error: on an error value and on a
    rejection they have the same outcome, final state and trace. *)
Theorem signIn_variants_agree_on_failure
    (env : Env) (payload : SupabaseAuthPayload) (s : AuthState) :
  (∀ response, supabase_auth_signIn env (WithPassword payload) = Fulfilled response →
               resp_error response ≠ None) ->
  signIn env payload s = signIn_basic env payload s.
Proof.
  intros Hfail. run_handler.
  destruct (supabase_auth_signIn env (WithPassword payload)) as [response|e];
    [| reflexivity].
  specialize (Hfail response eq_refl). simpl.
  destruct (resp_error response); [reflexivity | contradiction].
Qed.

Lemma signIn_variants_agree_on_failure_witness :
  signIn env_refusing alice_payload initial_AuthState
  = signIn_basic env_refusing alice_payload initial_AuthState.
Proof.
  apply (signIn_variants_agree_on_failure env_refusing alice_payload initial_AuthState).
  intros response Hanswer. injection Hanswer as <-. discriminate.
Defined.

(** X15. What [signUp] and [signIn] show and how they end is decided by the
    SDK's answer alone: two payloads that get the same answer lead to the
    same outcome, the same final state and the same messages, so neither
    the email nor the password typed reaches the banner. *)
Theorem payload_reaches_only_the_sdk
    (env : Env) (op : CredentialOp) (p1 p2 : SupabaseAuthPayload) (s : AuthState) :
  sdk_answer env op p1 = sdk_answer env op p2 ->
  let r1 := run_credential env op p1 s in
  let r2 := run_credential env op p2 s in
  outcome r1 = outcome r2 ∧
  final r1 = final r2 ∧
  messages (events r1) = messages (events r2).
Proof.
  intros Hsame.
  destruct op; simpl in Hsame; run_handler; rewrite Hsame;
    match goal with
    | |- context [match ?answer with Fulfilled _ => _ | Rejected _ => _ end] =>
        destruct answer as [response|e]
    end; simpl;
    try destruct (resp_error response); try destruct (resp_user response);
    try destruct e; destruct (handleMessage_defined env); simpl; done.
Qed.

Lemma payload_reaches_only_the_sdk_witness :
  let r1 := run_credential env_online OpSignIn alice_payload initial_AuthState in
  let r2 := run_credential env_online OpSignIn
              {| email := "bob@example.org"; password := "pw" |} initial_AuthState in
  outcome r1 = outcome r2 ∧
  final r1 = final r2 ∧
  messages (events r1) = messages (events r2).
Proof.
  apply (payload_reaches_only_the_sdk env_online OpSignIn alice_payload
           {| email := "bob@example.org"; password := "pw" |} initial_AuthState).
  reflexivity.
Defined.

(** ** signInWithGithub and signOut *)



(** X17. [signOut] makes the one SDK call and hands its settlement through:
    the answer (an error value included) is returned to the caller, a
    rejection is rethrown. It shows nothing and leaves the state alone: in
    particular it does not clear the user or [loggedIn] itself, that is
    left to the listener. *)
Theorem signOut_passes_the_answer_through (env : Env) (s : AuthState) :
  let r := signOut env s in
  outcome r = match supabase_auth_signOut env with
              | Fulfilled answer => Normal answer
              | Rejected e => Throw e
              end ∧
  events r = [EvSdkSignOut] ∧
  final r = s.
Proof.
  run_handler. destruct (supabase_auth_signOut env); simpl; done.
Qed.

(** ** The listener and the mount effect *)

(** X18. Every notification, also one whose session sync fails, ends the
    initial user lookup ([userLoading] false) and leaves [loading] alone;
    the listener shows no message and calls nothing of the SDK. *)
Theorem notification_ends_user_loading
    (env : Env) (event : AuthChangeEvent) (session : option Session) (s : AuthState) :
  let r := onAuthStateChange_handler env event session s in
  userLoading (final r) = false ∧
  loading (final r) = loading s ∧
  messages (events r) = [] ∧
  sdk_calls (events r) = [].
Proof.
  run_handler.
  destruct (fetch env _) as [[]|e]; [destruct session as [[? ? [u|]]|] |]; simpl; done.
Qed.

(** X19. A notification without a user never lowers [loggedIn]: the flag
    ends as it was, whether the session sync succeeds or not, so after a
    synced sign-out of a signed-in provider the user is null while
    [loggedIn] is still what it was. *)
Theorem signed_out_keeps_loggedIn
    (env : Env) (event : AuthChangeEvent) (session : option Session) (s : AuthState) :
  session ≫= session_user = None ->
  loggedIn (final (onAuthStateChange_handler env event session s)) = loggedIn s.
Proof.
  intros Huser. run_handler.
  destruct (fetch env _) as [[]|e]; [| reflexivity].
  destruct session as [[? ? [u|]]|]; simpl in *; [discriminate | done | done].
Qed.

Lemma signed_out_keeps_loggedIn_witness :
  loggedIn (final (onAuthStateChange_handler env_online SIGNED_OUT None signed_in_state))
  = loggedIn signed_in_state.
Proof.
  apply (signed_out_keeps_loggedIn env_online SIGNED_OUT None signed_in_state).
  reflexivity.
Defined.

(** X20. Nothing the provider does ever sets [loggedIn] to false or
    [userLoading] to true: both flags move one way only. *)
Theorem flags_move_one_way (env : Env) (a : ProviderAction) (s : AuthState) :
  Forall (fun ev => ev ≠ EvSet (SetLoggedin false) ∧ ev ≠ EvSet (SetUserLoading true))
         (action_trace env a s).
Proof.
  destruct a as [|event session| | | | |]; run_handler.
  - destruct (supabase_auth_user env); repeat constructor; discriminate.
  - destruct (fetch env _) as [[]|e]; [destruct session as [[? ? [u|]]|] |];
      simpl; repeat constructor; discriminate.
  - repeat case_match; simplify_eq; simpl; repeat constructor; discriminate.
  - repeat case_match; simplify_eq; simpl; repeat constructor; discriminate.
  - repeat case_match; simplify_eq; simpl; repeat constructor; discriminate.
  - repeat case_match; simplify_eq; simpl; repeat constructor; discriminate.
  - repeat constructor; discriminate.
Qed.

(** X21. A notification whose session carries a user and whose session
    sync is fulfilled signs the provider in: the user is set, [loggedIn]
    is true, and the one navigation is to the home route. *)
Theorem signed_in_notification_goes_home
    (env : Env) (event : AuthChangeEvent) (session : option Session) (s : AuthState)
    (u : User) :
  session ≫= session_user = Some u ->
  fetch env (sync_request env event session) = Fulfilled tt ->
  let r := onAuthStateChange_handler env event session s in
  outcome r = Normal tt ∧
  user (final r) = Some u ∧
  loggedIn (final r) = true ∧
  navigations (events r) = [ROUTE_HOME env].
Proof.
  intros Huser Hfetch. run_handler. rewrite Hfetch. simpl.
  destruct session as [[? ? [u'|]]|]; simpl in *; simplify_eq; done.
Qed.

Lemma signed_in_notification_goes_home_witness :
  let r := onAuthStateChange_handler env_online SIGNED_IN (Some alice_session)
             initial_AuthState in
  outcome r = Normal tt ∧
  user (final r) = Some alice ∧
  loggedIn (final r) = true ∧
  navigations (events r) = [ROUTE_HOME env_online].
Proof.
  apply (signed_in_notification_goes_home env_online SIGNED_IN (Some alice_session)
           initial_AuthState alice eq_refl eq_refl).
Defined.

(** X22. The kind of event plays no part in what the listener does to the
    state and the router: it is only logged and posted. Two notifications
    with the same session whose syncs settle alike end in the same state
    with the same navigations, so a [USER_UPDATED] or [PASSWORD_RECOVERY]
    notification redirects like a [SIGNED_IN] one. *)
Theorem event_kind_is_only_reported
    (env : Env) (e1 e2 : AuthChangeEvent) (session : option Session) (s : AuthState) :
  fetch env (sync_request env e1 session) = fetch env (sync_request env e2 session) ->
  let r1 := onAuthStateChange_handler env e1 session s in
  let r2 := onAuthStateChange_handler env e2 session s in
  outcome r1 = outcome r2 ∧
  final r1 = final r2 ∧
  navigations (events r1) = navigations (events r2).
Proof.
  intros Hsame. run_handler. rewrite Hsame.
  destruct (fetch env (sync_request env e2 session)) as [[]|e];
    [destruct session as [[? ? [u|]]|] |]; simpl; done.
Qed.

Lemma event_kind_is_only_reported_witness :
  let r1 := onAuthStateChange_handler env_online PASSWORD_RECOVERY (Some alice_session)
              initial_AuthState in
  let r2 := onAuthStateChange_handler env_online SIGNED_IN (Some alice_session)
              initial_AuthState in
  outcome r1 = outcome r2 ∧
  final r1 = final r2 ∧
  navigations (events r1) = navigations (events r2).
Proof.
  apply (event_kind_is_only_reported env_online PASSWORD_RECOVERY SIGNED_IN
           (Some alice_session) initial_AuthState).
  reflexivity.
Defined.

(** X23. The mount effect always completes, asks the SDK for the current
    user and then subscribes, once, whether it found a user or not; it
    never posts the session to the server and shows nothing. With a user it
    signs the provider in and goes to the home route; with none it leaves
    every state cell as it was ([userLoading] stays up until the first
    notification) and navigates nowhere. *)
Theorem mount_effect_behaviour (env : Env) (s : AuthState) :
  let r := AuthProvider_effect env s in
  outcome r = Normal tt ∧
  sdk_calls (events r) = [EvSdkUser; EvSdkOnAuthStateChange] ∧
  requests (events r) = [] ∧
  messages (events r) = [] ∧
  match supabase_auth_user env with
  | Some u =>
      final r = {| loading := loading s; user := Some u;
                   userLoading := false; loggedIn := true |} ∧
      navigations (events r) = [ROUTE_HOME env]
  | None => final r = s ∧ navigations (events r) = []
  end.
Proof.
  run_handler. destruct (supabase_auth_user env); simpl; done.
Qed.

(** ** Sequences of notifications *)

Lemma process_all_snoc (env : Env) (s : AuthState)
    (ns : list (AuthChangeEvent * option Session)) (n : AuthChangeEvent * option Session) :
  process_all env s (ns ++ [n])
  = final (onAuthStateChange_handler env n.1 n.2 (process_all env s ns)).
Proof. unfold process_all. rewrite foldl_snoc. reflexivity. Qed.

Lemma listener_user_step (env : Env) (n : AuthChangeEvent * option Session)
    (s : AuthState) :
  user (final (onAuthStateChange_handler env n.1 n.2 s))
  = if synced env n then n.2 ≫= session_user else user s.
Proof.
  unfold synced. run_handler.
  destruct (fetch env _) as [[]|e]; [| reflexivity].
  destruct n as [event [[? ? [u|]]|]]; reflexivity.
Qed.

Lemma listener_loggedIn_step (env : Env) (n : AuthChangeEvent * option Session)
    (s : AuthState) :
  loggedIn s = true ->
  loggedIn (final (onAuthStateChange_handler env n.1 n.2 s)) = true.
Proof.
  intros Hin. run_handler.
  destruct (fetch env _) as [[]|e]; [| exact Hin].
  destruct n as [event [[? ? [u|]]|]]; simpl; done.
Qed.

(** X24. After any sequence of notifications handled one after the other,
    the user state is the user of the last notification whose session sync
    was fulfilled (null when that session is null or carries none), and the
    user the provider started with when no sync was: notifications whose
    sync failed leave no mark on it. *)
Theorem user_mirrors_last_synced_notification
    (env : Env) (s : AuthState) (ns : list (AuthChangeEvent * option Session)) :
  user (process_all env s ns)
  = match last (filter (fun n => synced env n = true) ns) with
    | Some n => n.2 ≫= session_user
    | None => user s
    end.
Proof.
  induction ns as [|n ns IH] using rev_ind; [reflexivity |].
  rewrite process_all_snoc, listener_user_step, filter_app, last_app.
  rewrite filter_cons, filter_nil.
  destruct (synced env n); simpl.
  - reflexivity.
  - exact IH.
Qed.

(** X25. Once [loggedIn] is true it stays true through every sequence of
    notifications, sign-outs included. *)
Theorem loggedIn_survives_notifications
    (env : Env) (s : AuthState) (ns : list (AuthChangeEvent * option Session)) :
  loggedIn s = true ->
  loggedIn (process_all env s ns) = true.
Proof.
  intros Hin. induction ns as [|n ns IH] using rev_ind; [exact Hin |].
  rewrite process_all_snoc. apply listener_loggedIn_step, IH.
Qed.

Lemma loggedIn_survives_notifications_witness :
  loggedIn (process_all env_online signed_in_state
              [(SIGNED_OUT, None); (USER_UPDATED, None)]) = true.
Proof.
  apply (loggedIn_survives_notifications env_online signed_in_state
           [(SIGNED_OUT, None); (USER_UPDATED, None)]).
  reflexivity.
Defined.
